(** * CLTV: the customer-lifetime-value calculator of [src/App.tsx]

    The component [App] keeps a [CLVData] value in React state, recomputes the
    discounted breakdown with [calculateCLV] after every change of it
    ([useEffect] on [data]), resizes the horizon with [addYear] and
    [removeYear], and exports the breakdown as CSV with [exportResults].

    JavaScript numbers are IEEE-754 doubles.  The program is embedded over an
    interface [Number] that has exactly the operations the source applies to
    numbers, so that every theorem below names the arithmetic laws it relies
    on (most rely on none).  The interface has two instances on which the
    program is run: [xnum], exact rationals extended with the special values
    [Infinity], [-Infinity] and [NaN], and [float], the doubles themselves. *)

From Stdlib Require Import ZArith QArith Qabs Qround Qcanon List String Ascii Bool Arith Lia.
From Stdlib Require Import DecimalString.
From Stdlib Require Import Floats Uint63.
Import ListNotations.

Set Implicit Arguments.
Set Maximal Implicit Insertion.

(** ** Numbers *)

Declare Scope num_scope.
Delimit Scope num_scope with num.

(** The operations of the source on values of type [number]. *)
Class Number (num : Type) : Type := {
  (** an integer literal of the source, such as [100] or [20] *)
  of_Z : Z -> num;
  nadd : num -> num -> num;
  nsub : num -> num -> num;
  nmul : num -> num -> num;
  ndiv : num -> num -> num;
  (** unary minus *)
  nneg : num -> num;
  (** [Math.pow(base, t)] where [t] is the loop counter *)
  Math_pow : num -> nat -> num;
  (** [ToBoolean]: what [x || d] tests *)
  truthy : num -> bool;
  (** the conversion of a template literal, [`${x}`] *)
  toString : num -> string;
  (** [x.toFixed(digits)] *)
  toFixed : num -> nat -> string
}.

Infix "+" := nadd : num_scope.
Infix "-" := nsub : num_scope.
Infix "*" := nmul : num_scope.
Infix "/" := ndiv : num_scope.
Notation "- x" := (nneg x) : num_scope.

(** [v || d] where [v] is a number or [undefined]. *)
Definition js_or {num} `{Number num} (v : option num) (d : num) : num :=
  match v with
  | Some x => if truthy x then x else d
  | None => d
  end.

(** [`${t}`] for a loop counter. *)
Definition string_of_nat (n : nat) : string :=
  NilEmpty.string_of_uint (Nat.to_uint n).

(** [xs.slice(start, end)] of ECMAScript, with its relative indices. *)
Definition slice {A} (xs : list A) (start stop : Z) : list A :=
  let len := Z.of_nat (List.length xs) in
  let k := if (start <? 0)%Z then Z.max (len + start) 0 else Z.min start len in
  let final := if (stop <? 0)%Z then Z.max (len + stop) 0 else Z.min stop len in
  firstn (Z.to_nat (final - k)) (skipn (Z.to_nat k) xs).

(** [xs.join(sep)] on an array of strings. *)
Definition join (sep : string) (xs : list string) : string :=
  String.concat sep xs.

(** The number of occurrences of the character [c] in [s]. *)
Fixpoint count_char (c : ascii) (s : string) : nat :=
  match s with
  | EmptyString => 0
  | String x s' => (if Ascii.eqb x c then 1 else 0) + count_char c s'
  end.

(** The two characters that delimit the cells of the exported file. *)
Definition separator (c : ascii) : Prop :=
  c = ","%char \/ c = ascii_of_nat 10.

(** ** Data model *)

(** [interface CLVData]. *)
Record CLVData (num : Type) : Type := mkCLVData {
  margin : num;
  repeatProbabilities : list num;
  acquisitionCost : num;
  discountRate : num;
  timeHorizon : nat
}.

(** An element of [yearlyBreakdown]. *)
Module YearRow.
Record t (num : Type) : Type := mk {
  year : nat;
  margin : num;
  repeatProb : num;
  adjustedMargin : num;
  discountFactor : num;
  presentValue : num;
  calculation : string
}.
End YearRow.

(** The four pieces of React state of [App]. *)
Record AppState (num : Type) : Type := mkAppState {
  data : CLVData num;
  clv : num;
  yearlyBreakdown : list (YearRow.t num);
  totalPV : num
}.

Section Program.

Context {num : Type} `{Number num}.
Local Open Scope num_scope.
Local Open Scope string_scope.

Local Notation "0" := (of_Z 0%Z) : num_scope.
Local Notation "1" := (of_Z 1%Z) : num_scope.
Local Notation "20" := (of_Z 20%Z) : num_scope.
Local Notation "100" := (of_Z 100%Z) : num_scope.

(** *** [calculateCLV] *)

(** The body of the [for] loop at counter [t]: the row pushed on
    [breakdown]. *)
Definition breakdownRow (data : CLVData num) (t : nat) : YearRow.t num :=
  let repeatProb := js_or (nth_error (repeatProbabilities data) t) 0 in
  let adjustedMargin := margin data * (repeatProb / 100) in
  let discountFactor := Math_pow (1 + discountRate data / 100) t in
  let presentValue := adjustedMargin / discountFactor in
  let calculation :=
    if Nat.eqb t O then
      "$" ++ toString (margin data) ++ " × " ++ toString (repeatProb / 100)
          ++ " = $" ++ toFixed adjustedMargin 0
    else
      "$" ++ toFixed adjustedMargin 0 ++ " ÷ (1+"
          ++ toString (discountRate data / 100) ++ ")^" ++ string_of_nat t
          ++ " ≈ $" ++ toFixed presentValue 0 in
  YearRow.mk t (margin data) repeatProb adjustedMargin discountFactor
         presentValue calculation.

(** [for (let t = ...; t < data.timeHorizon; t++)], with [todo] the number
    of iterations left, [data.timeHorizon - t]. *)
Fixpoint forLoop (data : CLVData num) (todo t : nat)
         (totalPresentValue : num) (breakdown : list (YearRow.t num))
  : num * list (YearRow.t num) :=
  match todo with
  | O => (totalPresentValue, breakdown)
  | S todo' =>
      let row := breakdownRow data t in
      forLoop data todo' (S t)
              (totalPresentValue + YearRow.presentValue row)
              (breakdown ++ [row])%list
  end.

(** The values [calculateCLV] hands to [setYearlyBreakdown], [setTotalPV]
    and [setCLV]. *)
Definition calculateCLV (data : CLVData num)
  : list (YearRow.t num) * num * num :=
  let '(totalPresentValue, breakdown) :=
    forLoop data (timeHorizon data) O 0 [] in
  let finalCLV := totalPresentValue - acquisitionCost data in
  (breakdown, totalPresentValue, finalCLV).

(** The three components of the result. *)
Definition rowsOf (data : CLVData num) : list (YearRow.t num) :=
  fst (fst (calculateCLV data)).

Definition totalOf (data : CLVData num) : num :=
  snd (fst (calculateCLV data)).

Definition clvOf (data : CLVData num) : num :=
  snd (calculateCLV data).

(** [setData(d)] followed by the effect that runs [calculateCLV]. *)
Definition setData (d : CLVData num) : AppState num :=
  let '(breakdown, totalPresentValue, finalCLV) := calculateCLV d in
  mkAppState d finalCLV breakdown totalPresentValue.

(** *** The horizon *)

Definition addYear (data : CLVData num) : CLVData num :=
  if (timeHorizon data <? 10)%nat then
    mkCLVData (margin data)
              (repeatProbabilities data ++ [20])%list
              (acquisitionCost data)
              (discountRate data)
              (timeHorizon data + 1)
  else data.

Definition removeYear (data : CLVData num) : CLVData num :=
  if (1 <? timeHorizon data)%nat then
    mkCLVData (margin data)
              (slice (repeatProbabilities data) 0 (-1))
              (acquisitionCost data)
              (discountRate data)
              (timeHorizon data - 1)
  else data.

(** *** The handlers that change [data] *)

(** [newProbs[index] = value] on the copy [[...data.repeatProbabilities]].
    An assignment past the end extends the array; the slots it skips read
    as [undefined], which every read of the program turns into [0] with
    [|| 0], so they are kept as [0]. *)
Fixpoint array_set (xs : list num) (index : nat) (value : num) : list num :=
  match xs, index with
  | _ :: xs', O => value :: xs'
  | x :: xs', S i => x :: array_set xs' i value
  | [], O => [value]
  | [], S i => 0 :: array_set [] i value
  end.

Definition updateRepeatProbability (data : CLVData num)
           (index : nat) (value : num) : CLVData num :=
  let newProbs := array_set (repeatProbabilities data) index value in
  mkCLVData (margin data) newProbs (acquisitionCost data)
            (discountRate data) (timeHorizon data).

(** The [onChange] handlers of the three numeric inputs, applied to the
    result [parsed] of [parseFloat(e.target.value)]. *)
Definition changeMargin (data : CLVData num) (parsed : num) : CLVData num :=
  mkCLVData (js_or (Some parsed) 0) (repeatProbabilities data)
            (acquisitionCost data) (discountRate data) (timeHorizon data).

Definition changeAcquisitionCost (data : CLVData num) (parsed : num)
  : CLVData num :=
  mkCLVData (margin data) (repeatProbabilities data)
            (js_or (Some parsed) 0) (discountRate data) (timeHorizon data).

Definition changeDiscountRate (data : CLVData num) (parsed : num)
  : CLVData num :=
  mkCLVData (margin data) (repeatProbabilities data)
            (acquisitionCost data) (js_or (Some parsed) 0)
            (timeHorizon data).

(** The [onChange] handler of the input of period [index]. *)
Definition changeRepeatProbability (data : CLVData num)
           (index : nat) (parsed : num) : CLVData num :=
  updateRepeatProbability data index (js_or (Some parsed) 0).

(** The initial value of [data]. *)
Definition initialData : CLVData num :=
  mkCLVData (of_Z 60) (map of_Z [100; 90; 85; 85; 60; 30]%Z)
            (of_Z 6) (of_Z 10) 6.

(** The values [data] can take: the initial one and what the handlers of
    the page make of it.  The page shows one probability input per
    [index < data.timeHorizon]. *)
Inductive reachable : CLVData num -> Prop :=
| reach_initial : reachable initialData
| reach_margin d v : reachable d -> reachable (changeMargin d v)
| reach_acquisitionCost d v :
    reachable d -> reachable (changeAcquisitionCost d v)
| reach_discountRate d v :
    reachable d -> reachable (changeDiscountRate d v)
| reach_repeatProbability d i v :
    reachable d -> (i < timeHorizon d)%nat ->
    reachable (changeRepeatProbability d i v)
| reach_addYear d : reachable d -> reachable (addYear d)
| reach_removeYear d : reachable d -> reachable (removeYear d).

(** *** [exportResults] *)

Definition exportHeader : list string :=
  ["Year"; "Margin ($)"; "Repeat Prob (%)"; "Adjusted Margin ($)";
   "Discount Factor"; "Present Value ($)"; "Calculation"].

Definition exportRow (row : YearRow.t num) : list string :=
  [ if Nat.eqb (YearRow.year row) O then "Acquisition"
    else "Year " ++ string_of_nat (YearRow.year row);
    toFixed (YearRow.margin row) 2;
    toFixed (YearRow.repeatProb row) 0;
    toFixed (YearRow.adjustedMargin row) 2;
    toFixed (YearRow.discountFactor row) 4;
    toFixed (YearRow.presentValue row) 2;
    YearRow.calculation row ].

(** The array of arrays that [exportResults] builds. *)
Definition exportTable (st : AppState num) : list (list string) :=
  ([exportHeader]
     ++ map exportRow (yearlyBreakdown st)
     ++ [ [""; ""; ""; ""; ""; "Total PV:"; toFixed (totalPV st) 2];
          [""; ""; ""; ""; ""; "Acquisition Cost:";
           toFixed (- acquisitionCost (data st)) 2];
          [""; ""; ""; ""; ""; "Final CLV:"; toFixed (clv st) 2] ])%list.

Definition newline : string := String (ascii_of_nat 10) EmptyString.

(** [csvContent], the text of the downloaded file. *)
Definition csvContent (st : AppState num) : string :=
  join newline (map (join ",") (exportTable st)).

(** *** What the page shows *)

(** The [disabled] attributes of the buttons [-] and [+]. *)
Definition removeDisabled (data : CLVData num) : bool :=
  (timeHorizon data <=? 1)%nat.

Definition addDisabled (data : CLVData num) : bool :=
  (10 <=? timeHorizon data)%nat.

(** The probability inputs,
    [Array.from({ length: data.timeHorizon }).map((_, index) => ...)]: the
    label and the [value] of each. *)
Definition probabilityInputs (data : CLVData num) : list (string * num) :=
  map (fun index =>
         (if Nat.eqb index O then "Acquisition"
          else "Year " ++ string_of_nat index,
          js_or (nth_error (repeatProbabilities data) index) 0))
      (seq 0 (timeHorizon data)).

(** *** What the theorems speak of *)

(** A number that [|| 0] leaves as it is: every number but [NaN] (and, on
    doubles, the negative zero).  The handlers store nothing else, see
    [reachable_stored]. *)
Definition stored (x : num) : Prop := js_or (Some x) (of_Z 0) = x.

(** The sum of a column, added up from [0] in the order of the rows. *)
Definition sum (xs : list num) : num := fold_left nadd xs (of_Z 0).

(** The invariant the loop reads by: one probability per period. *)
Definition aligned (d : CLVData num) : Prop :=
  List.length (repeatProbabilities d) = timeHorizon d.

End Program.

(** ** Exact numbers with the special values

    [xnum] is the first instance: a finite number is an exact
    rational, so no rounding takes place, and [Infinity], [-Infinity] and
    [NaN] behave as IEEE-754 prescribes (there is one zero, which divides as
    [+0] does). *)

Inductive xnum : Type :=
| Fin (q : Qc)
| PosInf
| NegInf
| NaN.

Module X.

Local Open Scope Qc_scope.

(** The sign of a number other than [NaN]. *)
Definition sign (x : xnum) : comparison :=
  match x with
  | Fin q => q ?= 0
  | PosInf => Gt
  | NegInf => Lt
  | NaN => Eq
  end.

Definition infinity (s : comparison) : xnum :=
  match s with
  | Gt => PosInf
  | Lt => NegInf
  | Eq => NaN
  end.

Definition sign_mul (s1 s2 : comparison) : comparison :=
  match s1, s2 with
  | Eq, _ | _, Eq => Eq
  | Gt, s | s, Gt => s
  | Lt, Lt => Gt
  end.

Definition neg (x : xnum) : xnum :=
  match x with
  | Fin q => Fin (- q)
  | PosInf => NegInf
  | NegInf => PosInf
  | NaN => NaN
  end.

Definition add (x y : xnum) : xnum :=
  match x, y with
  | NaN, _ | _, NaN => NaN
  | Fin a, Fin b => Fin (a + b)
  | PosInf, NegInf | NegInf, PosInf => NaN
  | PosInf, _ | _, PosInf => PosInf
  | NegInf, _ | _, NegInf => NegInf
  end.

Definition sub (x y : xnum) : xnum := add x (neg y).

Definition mul (x y : xnum) : xnum :=
  match x, y with
  | NaN, _ | _, NaN => NaN
  | Fin a, Fin b => Fin (a * b)
  | _, _ => infinity (sign_mul (sign x) (sign y))
  end.

Definition div (x y : xnum) : xnum :=
  match x, y with
  | NaN, _ | _, NaN => NaN
  | Fin a, Fin b =>
      if Qc_eq_dec b 0 then infinity (sign x) else Fin (a / b)
  | Fin _, _ => Fin 0
  | _, Fin b =>
      if Qc_eq_dec b 0 then x else infinity (sign_mul (sign x) (sign y))
  | _, _ => NaN
  end.

(** [Math.pow(base, t)] for a counter [t]: [1] when [t] is [0], whatever
    the base. *)
Definition pow (base : xnum) (t : nat) : xnum :=
  match t with
  | O => Fin 1
  | S _ =>
      match base with
      | Fin q => Fin (q ^ t)
      | PosInf => PosInf
      | NegInf => if Nat.even t then PosInf else NegInf
      | NaN => NaN
      end
  end.

Definition truthy (x : xnum) : bool :=
  match x with
  | Fin q => if Qc_eq_dec q 0 then false else true
  | PosInf | NegInf => true
  | NaN => false
  end.

(** *** Printing *)

Local Open Scope string_scope.
Local Open Scope Z_scope.

(** The decimal digits of a natural number. *)
Definition digits (n : Z) : string :=
  NilEmpty.string_of_uint (N.to_uint (Z.to_N n)).

Fixpoint zeros (k : nat) : string :=
  match k with
  | O => ""
  | S k' => "0" ++ zeros k'
  end.

(** The integer nearest to [q * 10^e], the larger one of two. *)
Definition scaled_round (q : Q) (e : Z) : Z :=
  let a := Qnum q in
  let b := Zpos (Qden q) in
  if 0 <=? e then (2 * a * 10 ^ e + b) / (2 * b)
  else (2 * a + b * 10 ^ (- e)) / (2 * b * 10 ^ (- e)).

(** [x.toFixed(f)] for a finite [x] below [10^21] in absolute value. *)
Definition fixed (q : Q) (f : nat) : string :=
  let s := if Qnum q <? 0 then "-" else "" in
  let n := scaled_round (Qabs q) (Z.of_nat f) in
  let m := digits n in
  let m := if Nat.eqb f O then m
           else
             let k := String.length m in
             let m := if (k <=? f)%nat then zeros (f + 1 - k) ++ m else m in
             let k := String.length m in
             substring 0 (k - f) m ++ "." ++ substring (k - f) f m in
  s ++ m.

(** The least [j >= 1] with [a * 10^j >= b], for [0 < a < b]. *)
Fixpoint leading (fuel : nat) (a b : Z) (j : Z) : Z :=
  match fuel with
  | O => j
  | S fuel' => if b <=? a * 10 then j else leading fuel' (a * 10) b (j + 1)
  end.

(** The [n] with [10^(n-1) <= q < 10^n], for [q > 0]. *)
Definition decimal_exponent (q : Q) : Z :=
  let a := Qnum q in
  let b := Zpos (Qden q) in
  if b <=? a then Z.of_nat (String.length (digits (a / b)))
  else 1 - leading (String.length (digits b)) a b 1.

Fixpoint strip_zeros (fuel : nat) (s : Z) : Z :=
  match fuel with
  | O => s
  | S fuel' => if s mod 10 =? 0 then strip_zeros fuel' (s / 10) else s
  end.

(** The text [Number::toString] makes of the digits [s] of a number
    [s * 10^(n - k)], [k] being the number of digits of [s]. *)
Definition layout (s n : Z) : string :=
  let ds := digits s in
  let k := Z.of_nat (String.length ds) in
  if (k <=? n) && (n <=? 21) then
    ds ++ zeros (Z.to_nat (n - k))
  else if (0 <? n) && (n <=? 21) then
    substring 0 (Z.to_nat n) ds ++ "."
      ++ substring (Z.to_nat n) (Z.to_nat (k - n)) ds
  else if (-6 <? n) && (n <=? 0) then
    "0." ++ zeros (Z.to_nat (- n)) ++ ds
  else
    let e := (if n - 1 <? 0 then "-" else "+") ++ digits (Z.abs (n - 1)) in
    if k =? 1 then ds ++ "e" ++ e
    else substring 0 1 ds ++ "." ++ substring 1 (Z.to_nat (k - 1)) ds
           ++ "e" ++ e.

(** [Number::toString] for a positive [q], on the digits of [q] rounded to
    17 significant ones, as many as a double can need. *)
Definition shortest (q : Q) : string :=
  let n := decimal_exponent q in
  let s := scaled_round q (17 - n) in
  let '(s, n) := if 10 ^ 17 <=? s then (s / 10, n + 1) else (s, n) in
  layout (strip_zeros 17 s) n.

Definition toString (x : xnum) : string :=
  match x with
  | NaN => "NaN"
  | PosInf => "Infinity"
  | NegInf => "-Infinity"
  | Fin q =>
      match Qnum q with
      | Z0 => "0"
      | Zpos _ => shortest q
      | Zneg _ => "-" ++ shortest (Qabs q)
      end
  end.

Definition toFixed (x : xnum) (f : nat) : string :=
  match x with
  | Fin q =>
      if Qle_bool (inject_Z (10 ^ 21)) (Qabs q) then toString x
      else fixed q f
  | _ => toString x
  end.

End X.

#[export] Instance xnum_Number : Number xnum := {|
  of_Z z := Fin (Q2Qc (inject_Z z));
  nadd := X.add;
  nsub := X.sub;
  nmul := X.mul;
  ndiv := X.div;
  nneg := X.neg;
  Math_pow := X.pow;
  truthy := X.truthy;
  toString := X.toString;
  toFixed := X.toFixed
|}.

(** ** Doubles

    [float] is the IEEE-754 binary64 format of JavaScript numbers, with its
    rounding: [+], [-], [*] and [/] are the operations of the processor.
    ECMAScript leaves the precision of [Math.pow] to the implementation; the
    instance takes the product of [t] factors.  The two printing functions
    work on the exact value of the double, as ECMAScript defines them. *)

Module B64.

Local Open Scope string_scope.
Local Open Scope Z_scope.

(** An integer literal of the source, below [2^63] in absolute value. *)
Definition of_Z (z : Z) : float :=
  match z with
  | Z0 => PrimFloat.zero
  | Zpos _ => PrimFloat.of_uint63 (Uint63.of_Z z)
  | Zneg _ => PrimFloat.opp (PrimFloat.of_uint63 (Uint63.of_Z (- z)))
  end.

Fixpoint pow (base : float) (t : nat) : float :=
  match t with
  | O => PrimFloat.one
  | S t' => PrimFloat.mul base (pow base t')
  end.

(** Neither [NaN] nor a zero. *)
Definition truthy (x : float) : bool :=
  PrimFloat.eqb x x && negb (PrimFloat.eqb x PrimFloat.zero).

(** The number [m * 2^e]. *)
Definition dyadic (m : positive) (e : Z) : Q :=
  (inject_Z (Zpos m) * Qpower 2 e)%Q.

(** The absolute value of a finite double. *)
Definition magnitude (x : float) : option Q :=
  match Prim2SF x with
  | S754_zero _ => Some 0%Q
  | S754_finite _ m e => Some (dyadic m e)
  | _ => None
  end.

(** The sign bit is set, on a double that is not [NaN]. *)
Definition negative (x : float) : bool :=
  match Prim2SF x with
  | S754_zero s | S754_infinity s | S754_finite s _ _ => s
  | S754_nan => false
  end.

(** The value of a finite double. *)
Definition exact (x : float) : option Q :=
  match magnitude x with
  | Some q => Some (if negative x then (- q)%Q else q)
  | None => None
  end.

(** The decimal [v] reads back as the double [m * 2^e]: it lies between the
    midpoints to the neighbouring doubles, a midpoint counting when [m] is
    even. *)
Definition reads_back (m : positive) (e : Z) (v : Q) : bool :=
  let x := dyadic m e in
  let above := dyadic 1 (e - 1) in
  let below :=
    if (Zpos m =? 2 ^ 52) && (-1074 <? e) then dyadic 1 (e - 2) else above in
  match (v ?= x - below)%Q, (v ?= x + above)%Q with
  | Gt, Lt => true
  | Eq, _ | _, Eq => Z.even (Zpos m)
  | _, _ => false
  end.

(** The digits [s] and exponent [n] of the shortest decimal [s * 10^(n - k)]
    with [k] digits that reads back as [m * 2^e]: [k] is tried from [k0] up,
    and of the two [k]-digit decimals around the double the nearer one that
    reads back is taken. *)
Fixpoint shortest_from (fuel : nat) (k0 : Z) (m : positive) (e : Z)
  : Z * Z :=
  let x := dyadic m e in
  let n := X.decimal_exponent (Qred x) in
  let unit := Qpower 10 (n - k0) in
  let lo := Qfloor (x / unit) in
  let hi := lo + 1 in
  let vlo := (inject_Z lo * unit)%Q in
  let vhi := (inject_Z hi * unit)%Q in
  let take_hi := if 10 ^ k0 <=? hi then (1, n + 1) else (hi, n) in
  match fuel with
  | O => (lo, n)
  | S fuel' =>
      match reads_back m e vlo, reads_back m e vhi with
      | true, true =>
          match (x - vlo ?= vhi - x)%Q with
          | Lt => (lo, n)
          | Gt => take_hi
          | Eq => if Z.even lo then (lo, n) else take_hi
          end
      | true, false => (lo, n)
      | false, true => take_hi
      | false, false => shortest_from fuel' (k0 + 1) m e
      end
  end.

Definition toString (x : float) : string :=
  match Prim2SF x with
  | S754_nan => "NaN"
  | S754_zero _ => "0"
  | S754_infinity s => if s then "-Infinity" else "Infinity"
  | S754_finite s m e =>
      let '(digits, n) := shortest_from 17 1 m e in
      (if s then "-" else "") ++ X.layout (X.strip_zeros 17 digits) n
  end.

Definition toFixed (x : float) (f : nat) : string :=
  match exact x with
  | Some q =>
      if Qle_bool (inject_Z (10 ^ 21)) (Qabs q) then toString x
      else X.fixed (Qred q) f
  | None => toString x
  end.

End B64.

#[export] Instance binary64_Number : Number float := {|
  of_Z := B64.of_Z;
  nadd := PrimFloat.add;
  nsub := PrimFloat.sub;
  nmul := PrimFloat.mul;
  ndiv := PrimFloat.div;
  nneg := PrimFloat.opp;
  Math_pow := B64.pow;
  truthy := B64.truthy;
  toString := B64.toString;
  toFixed := B64.toFixed
|}.

(** ** Concrete parameters *)

(** The default parameters, as numbers of [xnum]. *)
Definition defaults : CLVData xnum := initialData.

(** [x] is finite and at most [tol] away from [c]. *)
Definition near (c tol : Q) (x : xnum) : Prop :=
  match x with
  | Fin q => (Qabs (q - c) <= tol)%Q
  | _ => False
  end.

(** A horizon at its upper bound: the defaults after four [addYear]. *)
Definition longest : CLVData xnum :=
  addYear (addYear (addYear (addYear defaults))).

(** A horizon at its lower bound: the defaults after five [removeYear]. *)
Definition shortest_horizon : CLVData xnum :=
  removeYear (removeYear (removeYear (removeYear (removeYear defaults)))).

(** The defaults with the degenerate discount rate. *)
Definition degenerate : CLVData xnum :=
  changeDiscountRate defaults (of_Z (-100)).

(** The same parameters as doubles. *)
Definition defaults64 : CLVData float := initialData.

Definition degenerate64 : CLVData float :=
  changeDiscountRate defaults64 (of_Z (-100)).

(** The double [x] is finite and at most [tol] away from [c]. *)
Definition within64 (c tol : Q) (x : float) : bool :=
  match B64.exact x with
  | Some q => Qle_bool (Qabs (q - c)) tol
  | None => false
  end.

Definition near64 (c tol : Q) (x : float) : Prop := within64 c tol x = true.

(** A test on two lists, element by element. *)
Fixpoint forall2b {A B : Type} (f : A -> B -> bool) (xs : list A)
         (ys : list B) : bool :=
  match xs, ys with
  | [], [] => true
  | x :: xs', y :: ys' => f x y && forall2b f xs' ys'
  | _, _ => false
  end.

(** ** The discounting loop *)

Section Discounting.

Context {num : Type} `{Number num}.
Local Open Scope num_scope.

Lemma forLoop_unfold (d : CLVData num) (todo t : nat) (total : num)
      (breakdown : list (YearRow.t num)) :
  forLoop d todo t total breakdown =
    (fold_left nadd (map (fun k => YearRow.presentValue (breakdownRow d k))
                         (seq t todo)) total,
     breakdown ++ map (breakdownRow d) (seq t todo)).
Proof.
  revert t total breakdown.
  induction todo as [|todo IH]; intros t total breakdown; simpl.
  - now rewrite app_nil_r.
  - rewrite IH, <- app_assoc. reflexivity.
Qed.

Lemma rowsOf_eq (d : CLVData num) :
  rowsOf d = map (breakdownRow d) (seq 0 (timeHorizon d)).
Proof.
  unfold rowsOf, calculateCLV. rewrite forLoop_unfold. reflexivity.
Qed.

Lemma totalOf_eq (d : CLVData num) :
  totalOf d = sum (map YearRow.presentValue (rowsOf d)).
Proof.
  rewrite rowsOf_eq, map_map.
  unfold totalOf, calculateCLV. rewrite forLoop_unfold. reflexivity.
Qed.

Lemma clvOf_eq (d : CLVData num) :
  clvOf d = totalOf d - acquisitionCost d.
Proof.
  unfold clvOf, totalOf, calculateCLV. rewrite forLoop_unfold. reflexivity.
Qed.

Lemma calculateCLV_triple (d : CLVData num) :
  calculateCLV d = (rowsOf d, totalOf d, clvOf d).
Proof.
  unfold rowsOf, totalOf, clvOf.
  destruct (calculateCLV d) as [[rows total] final]. reflexivity.
Qed.

Lemma rowsOf_length (d : CLVData num) :
  List.length (rowsOf d) = timeHorizon d.
Proof. now rewrite rowsOf_eq, length_map, length_seq. Qed.

Lemma rowsOf_nth (d : CLVData num) (t : nat) :
  (t < timeHorizon d)%nat ->
  nth_error (rowsOf d) t = Some (breakdownRow d t).
Proof.
  intros Ht. rewrite rowsOf_eq.
  rewrite nth_error_map, nth_error_seq.
  apply Nat.ltb_lt in Ht. now rewrite Ht.
Qed.

Lemma stored_lookup (xs : list num) (t : nat) :
  Forall stored xs ->
  js_or (nth_error xs t) (of_Z 0) =
    match nth_error xs t with Some x => x | None => of_Z 0 end.
Proof.
  intros Hxs. destruct (nth_error xs t) as [x|] eqn:Hx; [|reflexivity].
  apply nth_error_In in Hx.
  rewrite Forall_forall in Hxs. exact (Hxs x Hx).
Qed.

(** C1.  When every entry of [repeatProbabilities] is a number that
    [|| 0] keeps (a real number, as the data model has it),
    [calculateCLV] returns [timeHorizon] rows; the row at position [t] is
    the one of period [t], its [repeatProb] is [repeatProbabilities[t]] if
    that entry is present and [0] otherwise, its [adjustedMargin] is
    [margin * (repeatProb / 100)], its [discountFactor] is
    [(1 + discountRate / 100) ^ t] and its [presentValue] is
    [adjustedMargin / discountFactor].  The bound [timeHorizon >= 1] is not
    needed. *)
Theorem calculateCLV_rows (d : CLVData num) :
  Forall stored (repeatProbabilities d) ->
  List.length (rowsOf d) = timeHorizon d /\
  forall t : nat, (t < timeHorizon d)%nat ->
    exists row : YearRow.t num,
      nth_error (rowsOf d) t = Some row /\
      YearRow.year row = t /\
      YearRow.repeatProb row =
        match nth_error (repeatProbabilities d) t with
        | Some p => p
        | None => of_Z 0
        end /\
      YearRow.adjustedMargin row =
        margin d * (YearRow.repeatProb row / of_Z 100) /\
      YearRow.discountFactor row =
        Math_pow (of_Z 1 + discountRate d / of_Z 100) t /\
      YearRow.presentValue row =
        YearRow.adjustedMargin row / YearRow.discountFactor row.
Proof.
  intros Hstored. split; [apply rowsOf_length|].
  intros t Ht. exists (breakdownRow d t).
  split; [now apply rowsOf_nth|].
  unfold breakdownRow; cbn [YearRow.year YearRow.repeatProb YearRow.adjustedMargin
                            YearRow.discountFactor YearRow.presentValue].
  rewrite (stored_lookup t Hstored).
  repeat split; reflexivity.
Qed.

(** C2.  The [totalPV] that [calculateCLV] returns is the sum of the
    [presentValue] of the rows it returns, added from [0] in the order of
    the rows, and the [clv] it returns is that [totalPV] minus
    [acquisitionCost].  Both are equalities of numbers, whatever the
    arithmetic, and hold for every horizon. *)
Theorem calculateCLV_totals (d : CLVData num) :
  totalOf d = sum (map YearRow.presentValue (rowsOf d)) /\
  clvOf d = totalOf d - acquisitionCost d /\
  calculateCLV d = (rowsOf d, totalOf d, clvOf d).
Proof.
  split; [apply totalOf_eq|]. split; [apply clvOf_eq|].
  apply calculateCLV_triple.
Qed.

(** C9.  In an arithmetic where [Math.pow(x, 0)] is [1] and [x / 1] is
    [x], as in JavaScript, the first row that [calculateCLV] returns has
    [discountFactor] [1] and a [presentValue] equal to its
    [adjustedMargin], whatever the discount rate, as soon as
    [timeHorizon >= 1]. *)
Theorem first_period_undiscounted (d : CLVData num) :
  (forall x : num, Math_pow x 0 = of_Z 1) ->
  (forall x : num, x / of_Z 1 = x) ->
  (1 <= timeHorizon d)%nat ->
  exists row : YearRow.t num,
    nth_error (rowsOf d) 0 = Some row /\
    YearRow.discountFactor row = of_Z 1 /\
    YearRow.presentValue row = YearRow.adjustedMargin row.
Proof.
  intros Hpow Hdiv Hth. exists (breakdownRow d 0).
  split; [apply rowsOf_nth; lia|].
  unfold breakdownRow; cbn [YearRow.discountFactor YearRow.presentValue
                            YearRow.adjustedMargin].
  rewrite Hpow. split; [reflexivity|apply Hdiv].
Qed.

(** C10.  Two parameter values that differ at most in [acquisitionCost]
    get the same rows and the same [totalPV] from [calculateCLV]; the
    [clv] of each is that common [totalPV] minus its own
    [acquisitionCost]. *)
Theorem acquisitionCost_noninterference (d1 d2 : CLVData num) :
  margin d1 = margin d2 ->
  repeatProbabilities d1 = repeatProbabilities d2 ->
  discountRate d1 = discountRate d2 ->
  timeHorizon d1 = timeHorizon d2 ->
  rowsOf d1 = rowsOf d2 /\
  totalOf d1 = totalOf d2 /\
  clvOf d1 = totalOf d1 - acquisitionCost d1 /\
  clvOf d2 = totalOf d1 - acquisitionCost d2.
Proof.
  intros Hm Hp Hr Ht.
  assert (Hrows : rowsOf d1 = rowsOf d2).
  { rewrite !rowsOf_eq, Ht. apply map_ext. intros t.
    unfold breakdownRow. now rewrite Hm, Hp, Hr. }
  assert (Htotal : totalOf d1 = totalOf d2)
    by now rewrite !totalOf_eq, Hrows.
  repeat split; try assumption.
  - apply clvOf_eq.
  - rewrite Htotal. apply clvOf_eq.
Qed.

(** C7.  With [discountRate = -100], in an arithmetic where
    [1 + (-100) / 100] is [0] and [Math.pow(0, t)] is [0] for [t >= 1], as
    in JavaScript, [calculateCLV] returns its [timeHorizon] rows, and each
    row of a period [t >= 1] has [discountFactor] [0] and, as
    [presentValue], the quotient of its [adjustedMargin] by [0], whatever
    the division makes of it; [totalPV] is the sum of these values and
    [clv] is [totalPV - acquisitionCost], with no other case.  [addYear]
    and [removeYear] return a state as well: nothing in the embedding can
    fail. *)
Theorem degenerate_discount_rate (d : CLVData num) :
  of_Z 1 + of_Z (-100) / of_Z 100 = of_Z 0 ->
  (forall t : nat, Math_pow (of_Z 0) (S t) = of_Z 0) ->
  discountRate d = of_Z (-100) ->
  (exists rows total final,
      calculateCLV d = (rows, total, final) /\
      List.length rows = timeHorizon d /\
      total = sum (map YearRow.presentValue rows) /\
      final = total - acquisitionCost d /\
      forall t : nat, (1 <= t < timeHorizon d)%nat ->
        exists row : YearRow.t num,
          nth_error rows t = Some row /\
          YearRow.discountFactor row = of_Z 0 /\
          YearRow.presentValue row = YearRow.adjustedMargin row / of_Z 0) /\
  (exists d' : CLVData num, addYear d = d') /\
  (exists d' : CLVData num, removeYear d = d').
Proof.
  intros Hbase Hpow Hrate.
  split; [|split; eexists; reflexivity].
  exists (rowsOf d), (totalOf d), (clvOf d).
  split; [apply calculateCLV_triple|].
  split; [apply rowsOf_length|].
  split; [apply totalOf_eq|].
  split; [apply clvOf_eq|].
  intros t [Ht1 Ht2]. exists (breakdownRow d t).
  split; [now apply rowsOf_nth|].
  destruct t as [|t]; [lia|].
  unfold breakdownRow; cbn [YearRow.discountFactor YearRow.presentValue
                            YearRow.adjustedMargin].
  rewrite Hrate, Hbase, Hpow. split; reflexivity.
Qed.

End Discounting.

(** ** The horizon *)

Section Horizon.

Context {num : Type} `{Number num}.

Lemma slice_drop_last (A : Type) (xs : list A) :
  slice xs 0 (-1) = removelast xs.
Proof.
  unfold slice. cbn [Z.ltb Z.compare].
  rewrite Z.min_l by lia. cbn [Z.to_nat skipn].
  rewrite removelast_firstn_len. f_equal. lia.
Qed.

Lemma slice_drop_last_app (A : Type) (xs : list A) (x : A) :
  slice (xs ++ [x]) 0 (-1) = xs.
Proof. now rewrite slice_drop_last, removelast_last. Qed.

Lemma array_set_length (xs : list num) (i : nat) (v : num) :
  (i < List.length xs)%nat ->
  List.length (array_set xs i v) = List.length xs.
Proof.
  revert i. induction xs as [|x xs IH]; intros [|i] Hi; simpl in *;
    try lia.
  rewrite IH by lia. reflexivity.
Qed.

Lemma addYear_aligned (d : CLVData num) : aligned d -> aligned (addYear d).
Proof.
  unfold aligned, addYear. intros Hd.
  destruct (timeHorizon d <? 10)%nat; [|exact Hd].
  cbn [repeatProbabilities timeHorizon].
  rewrite length_app, Hd. reflexivity.
Qed.

Lemma removeYear_aligned (d : CLVData num) :
  aligned d -> aligned (removeYear d).
Proof.
  unfold aligned, removeYear. intros Hd.
  destruct (1 <? timeHorizon d)%nat eqn:Hth; [|exact Hd].
  cbn [repeatProbabilities timeHorizon].
  rewrite slice_drop_last, removelast_firstn_len, length_firstn, Hd. lia.
Qed.

Lemma reachable_aligned (d : CLVData num) : reachable d -> aligned d.
Proof.
  induction 1 as [|d v _ IH|d v _ IH|d v _ IH|d i v _ IH Hi|d _ IH|d _ IH].
  - reflexivity.
  - exact IH.
  - exact IH.
  - exact IH.
  - unfold aligned, changeRepeatProbability, updateRepeatProbability.
    cbn [repeatProbabilities timeHorizon].
    rewrite array_set_length; [exact IH|]. now rewrite IH.
  - now apply addYear_aligned.
  - now apply removeYear_aligned.
Qed.

Lemma reachable_bounds (d : CLVData num) :
  reachable d -> (1 <= timeHorizon d <= 10)%nat.
Proof.
  induction 1 as [|d v _ IH|d v _ IH|d v _ IH|d i v _ IH Hi|d _ IH|d _ IH];
    try exact IH.
  - simpl. lia.
  - unfold addYear.
    destruct (timeHorizon d <? 10)%nat eqn:Hth; [|exact IH].
    apply Nat.ltb_lt in Hth. simpl. lia.
  - unfold removeYear.
    destruct (1 <? timeHorizon d)%nat eqn:Hth; [|exact IH].
    apply Nat.ltb_lt in Hth. simpl. lia.
Qed.


Lemma stored_zero : stored (of_Z 0).
Proof. unfold stored, js_or. now destruct (truthy (of_Z 0)). Qed.




(** C3.  In every state the page can be in, [addYear] and [removeYear]
    both leave [repeatProbabilities.length] equal to [timeHorizon]. *)
Theorem horizon_length_invariant (d : CLVData num) :
  reachable d ->
  List.length (repeatProbabilities (addYear d)) = timeHorizon (addYear d) /\
  List.length (repeatProbabilities (removeYear d))
    = timeHorizon (removeYear d).
Proof.
  intros Hd. apply reachable_aligned in Hd.
  split; [now apply addYear_aligned|now apply removeYear_aligned].
Qed.

(** C4.  Below the bound [10], [addYear] adds one to [timeHorizon] and
    appends the single entry [20] to [repeatProbabilities], and changes no
    other field; at the bound it returns the state it was given. *)
Theorem addYear_spec (d : CLVData num) :
  ((timeHorizon d < 10)%nat ->
     timeHorizon (addYear d) = S (timeHorizon d) /\
     repeatProbabilities (addYear d)
       = (repeatProbabilities d ++ [of_Z 20])%list /\
     margin (addYear d) = margin d /\
     acquisitionCost (addYear d) = acquisitionCost d /\
     discountRate (addYear d) = discountRate d) /\
  (timeHorizon d = 10%nat -> addYear d = d).
Proof.
  unfold addYear. split.
  - intros Hth. apply Nat.ltb_lt in Hth. rewrite Hth.
    cbn [timeHorizon repeatProbabilities margin acquisitionCost
         discountRate].
    repeat split. lia.
  - intros Hth. now rewrite Hth.
Qed.

(** C5.  Above the bound [1], [removeYear] takes one from [timeHorizon]
    and removes the last entry of [repeatProbabilities] and no other, and
    changes no other field; at the bound it returns the state it was
    given. *)
Theorem removeYear_spec (d : CLVData num) :
  ((1 < timeHorizon d)%nat ->
     S (timeHorizon (removeYear d)) = timeHorizon d /\
     (forall (front : list num) (last : num),
         repeatProbabilities d = (front ++ [last])%list ->
         repeatProbabilities (removeYear d) = front) /\
     repeatProbabilities (removeYear d)
       = removelast (repeatProbabilities d) /\
     margin (removeYear d) = margin d /\
     acquisitionCost (removeYear d) = acquisitionCost d /\
     discountRate (removeYear d) = discountRate d) /\
  (timeHorizon d = 1%nat -> removeYear d = d).
Proof.
  unfold removeYear. split.
  - intros Hth. pose proof Hth as Hlt. apply Nat.ltb_lt in Hth.
    rewrite Hth.
    cbn [timeHorizon repeatProbabilities margin acquisitionCost
         discountRate].
    repeat split.
    + lia.
    + intros front last Hxs. rewrite Hxs. apply slice_drop_last_app.
    + apply slice_drop_last.
  - intros Hth. now rewrite Hth.
Qed.

End Horizon.

(** ** The export *)

Section ExportResults.

Context {num : Type} `{Number num}.
Local Open Scope string_scope.

Lemma exportTable_length (st : AppState num) :
  List.length (exportTable st) = (List.length (yearlyBreakdown st) + 4)%nat.
Proof.
  unfold exportTable. rewrite !length_app, length_map. simpl. lia.
Qed.

Lemma exportTable_data (st : AppState num) (i : nat) (row : YearRow.t num) :
  nth_error (yearlyBreakdown st) i = Some row ->
  nth_error (exportTable st) (S i) = Some (exportRow row).
Proof.
  intros Hrow. unfold exportTable. cbn [app nth_error].
  rewrite nth_error_app1.
  - now rewrite nth_error_map, Hrow.
  - rewrite length_map. apply nth_error_Some. now rewrite Hrow.
Qed.


Lemma setData_fields (d : CLVData num) :
  setData d = mkAppState d (clvOf d) (rowsOf d) (totalOf d).
Proof. unfold setData. now rewrite calculateCLV_triple. Qed.


End ExportResults.

(** ** The program on exact numbers *)

Section Exact.

Local Open Scope num_scope.

Lemma Fin_eq (a b : Qc) : (a == b)%Q -> Fin a = Fin b.
Proof. intros Hab. f_equal. now apply Qc_is_canon. Qed.

Lemma xnum_pow_0 (x : xnum) : Math_pow x 0 = of_Z 1.
Proof. reflexivity. Qed.

Lemma xnum_div_1 (x : xnum) : x / of_Z 1 = x.
Proof.
  destruct x as [q| | |]; try reflexivity.
  cbn. destruct (Qc_eq_dec (Q2Qc (inject_Z 1)) 0) as [Habs|_].
  - discriminate Habs.
  - f_equal. change (Q2Qc (inject_Z 1)) with 1%Qc. unfold Qcdiv.
    replace (/ 1)%Qc with 1%Qc by (apply Qc_is_canon; reflexivity).
    apply Qcmult_1_r.
Qed.

Lemma xnum_degenerate_base :
  of_Z 1 + of_Z (-100) / of_Z 100 = (of_Z 0 : xnum).
Proof. apply Fin_eq. reflexivity. Qed.

Lemma xnum_pow_zero (t : nat) : Math_pow (of_Z 0) (S t) = (of_Z 0 : xnum).
Proof.
  cbn [Math_pow xnum_Number X.pow of_Z].
  f_equal. cbn [Qcpower]. apply Qcmult_0_l.
Qed.

(** On [xnum], [|| 0] changes [NaN] and nothing else. *)
Lemma xnum_stored (x : xnum) : stored x <-> x <> NaN.
Proof.
  unfold stored, js_or.
  destruct x as [q| | |]; cbn [truthy xnum_Number X.truthy];
    split; try congruence; try discriminate.
  intros _. destruct (Qc_eq_dec q 0) as [Hq|_]; [|reflexivity].
  rewrite Hq. apply Fin_eq. reflexivity.
Qed.

Lemma length_append (a b : string) :
  String.length (a ++ b) = (String.length a + String.length b)%nat.
Proof. induction a as [|c a IH]; simpl; [reflexivity|now rewrite IH]. Qed.

Lemma append_assoc (a b c : string) :
  (a ++ (b ++ c) = (a ++ b) ++ c)%string.
Proof. induction a as [|x a IH]; simpl; [reflexivity|now rewrite IH]. Qed.

Lemma length_zeros (k : nat) : String.length (X.zeros k) = k.
Proof. induction k as [|k IH]; simpl; [reflexivity|now rewrite IH]. Qed.

Lemma length_substring (n m : nat) (a : string) :
  (n + m <= String.length a)%nat -> String.length (substring n m a) = m.
Proof.
  revert n m. induction a as [|c a IH]; intros [|n] [|m] Hnm; simpl in *;
    try reflexivity; try lia.
  - rewrite IH by lia. reflexivity.
  - apply IH. lia.
  - apply IH. lia.
Qed.

(** With [f >= 1] fraction digits, the text of [toFixed] on a finite number
    below [10^21] is an integer part, a point and exactly [f] characters. *)
Lemma fixed_decimals (q : Q) (f : nat) :
  exists whole frac : string,
    X.fixed q (S f) = (whole ++ "." ++ frac)%string /\
    String.length frac = S f.
Proof.
  unfold X.fixed. cbn [Nat.eqb].
  set (sign := if (Qnum q <? 0)%Z then "-"%string else ""%string).
  set (m := X.digits (X.scaled_round (Qabs q) (Z.of_nat (S f)))).
  set (m' := if (String.length m <=? S f)%nat
             then (X.zeros (S f + 1 - String.length m) ++ m)%string
             else m).
  assert (Hlen : (S f < String.length m')%nat).
  { subst m'. destruct (String.length m <=? S f)%nat eqn:Hk.
    - apply Nat.leb_le in Hk. rewrite length_append, length_zeros. lia.
    - apply Nat.leb_gt in Hk. exact Hk. }
  exists (sign ++ substring 0 (String.length m' - S f) m')%string,
         (substring (String.length m' - S f) (S f) m').
  split.
  - now rewrite append_assoc.
  - apply length_substring. lia.
Qed.

End Exact.

(** ** The program on doubles *)

Section Binary64.

Local Open Scope num_scope.

Lemma forall2b_Forall2 (A B : Type) (f : A -> B -> bool) (xs : list A)
      (ys : list B) :
  forall2b f xs ys = true -> Forall2 (fun x y => f x y = true) xs ys.
Proof.
  revert ys. induction xs as [|x xs IH]; intros [|y ys] Hf;
    try discriminate Hf; [constructor|].
  simpl in Hf. apply andb_true_iff in Hf as [Hxy Hrest].
  constructor; [exact Hxy|now apply IH].
Qed.

Lemma binary64_pow_0 (x : float) : Math_pow x 0 = of_Z 1.
Proof. reflexivity. Qed.

Lemma binary64_degenerate_base :
  of_Z 1 + of_Z (-100) / of_Z 100 = (of_Z 0 : float).
Proof. vm_compute. reflexivity. Qed.

Lemma binary64_pow_zero (t : nat) :
  Math_pow (of_Z 0) (S t) = (of_Z 0 : float).
Proof.
  induction t as [|t IH].
  - vm_compute. reflexivity.
  - change (Math_pow (of_Z 0) (S (S t)))
      with (PrimFloat.mul (of_Z 0) (Math_pow (of_Z 0) (S t))).
    rewrite IH. vm_compute. reflexivity.
Qed.

End Binary64.

(** ** The claims at concrete inputs *)

Section Scenarios.

Local Open Scope num_scope.

(** C8.  On the default parameters [margin = 60],
    [repeatProbabilities = [100, 90, 85, 85, 60, 30]],
    [acquisitionCost = 6], [discountRate = 10] and [timeHorizon = 6],
    in exact arithmetic, the [presentValue] of the six rows are within half
    a unit of the last printed decimal of 60, 49.09, 42.15, 38.32, 24.59
    and 11.18, [totalPV] is within 0.005 of 225.32 and [clv] within 0.005
    of 219.32. *)
Theorem default_scenario :
  let d : CLVData xnum :=
    mkCLVData (of_Z 60) (map of_Z [100; 90; 85; 85; 60; 30]%Z)
              (of_Z 6) (of_Z 10) 6 in
  d = initialData /\
  Forall2 (fun expected pv => near (fst expected) (snd expected) pv)
          [(60, 0.5); (49.09, 0.005); (42.15, 0.005);
           (38.32, 0.005); (24.59, 0.005); (11.18, 0.005)]%Q
          (map YearRow.presentValue (rowsOf d)) /\
  near 225.32 0.005 (totalOf d) /\
  near 219.32 0.005 (clvOf d).
Proof.
  split; [reflexivity|].
  vm_compute.
  repeat split; repeat constructor; intro Hc; discriminate Hc.
Qed.

(** What the degenerate rate yields on [xnum]: the periods after the first
    divide a positive margin by [0]. *)
Example degenerate_values :
  map YearRow.presentValue (rowsOf degenerate)
    = [of_Z 60; PosInf; PosInf; PosInf; PosInf; PosInf] /\
  totalOf degenerate = PosInf /\
  clvOf degenerate = PosInf.
Proof. repeat split. Qed.

(** With a probability of [0] in a later period the quotient is [0 / 0]. *)
Example degenerate_nan :
  let d := changeRepeatProbability degenerate 2 (of_Z 0) in
  map YearRow.presentValue (rowsOf d)
    = [of_Z 60; PosInf; NaN; PosInf; PosInf; PosInf] /\
  totalOf d = NaN /\
  clvOf d = NaN.
Proof. repeat split. Qed.

(** The file exported for the default parameters. *)
Example export_of_defaults :
  csvContent (setData defaults) =
    join newline
      [ "Year,Margin ($),Repeat Prob (%),Adjusted Margin ($),Discount Factor,Present Value ($),Calculation";
        "Acquisition,60.00,100,60.00,1.0000,60.00,$60 × 1 = $60";
        "Year 1,60.00,90,54.00,1.1000,49.09,$54 ÷ (1+0.1)^1 ≈ $49";
        "Year 2,60.00,85,51.00,1.2100,42.15,$51 ÷ (1+0.1)^2 ≈ $42";
        "Year 3,60.00,85,51.00,1.3310,38.32,$51 ÷ (1+0.1)^3 ≈ $38";
        "Year 4,60.00,60,36.00,1.4641,24.59,$36 ÷ (1+0.1)^4 ≈ $25";
        "Year 5,60.00,30,18.00,1.6105,11.18,$18 ÷ (1+0.1)^5 ≈ $11";
        ",,,,,Total PV:,225.32";
        ",,,,,Acquisition Cost:,-6.00";
        ",,,,,Final CLV:,219.32" ]%string.
Proof. vm_compute. reflexivity. Qed.

(** The same file comes out on doubles. *)
Example export_of_defaults_binary64 :
  csvContent (setData defaults64) = csvContent (setData defaults).
Proof. vm_compute. reflexivity. Qed.

(** On doubles the values of the default scenario are within the same
    bounds. *)
Example default_scenario_binary64 :
  Forall2 (fun expected pv => near64 (fst expected) (snd expected) pv)
          [(60, 0.5); (49.09, 0.005); (42.15, 0.005);
           (38.32, 0.005); (24.59, 0.005); (11.18, 0.005)]%Q
          (map YearRow.presentValue (rowsOf defaults64)) /\
  near64 225.32 0.005 (totalOf defaults64) /\
  near64 219.32 0.005 (clvOf defaults64).
Proof.
  split; [|split; vm_compute; reflexivity].
  apply (forall2b_Forall2
           (fun expected pv => within64 (fst expected) (snd expected) pv)).
  vm_compute. reflexivity.
Qed.

(** On doubles the degenerate rate yields [Infinity], and [NaN] where the
    margin of the period is [0]. *)
Example degenerate_values_binary64 :
  map YearRow.presentValue (rowsOf degenerate64)
    = [of_Z 60; infinity; infinity; infinity; infinity; infinity] /\
  totalOf degenerate64 = infinity /\
  clvOf degenerate64 = infinity /\
  map YearRow.presentValue
      (rowsOf (changeRepeatProbability degenerate64 2 (of_Z 0)))
    = [of_Z 60; infinity; nan; infinity; infinity; infinity] /\
  totalOf (changeRepeatProbability degenerate64 2 (of_Z 0)) = nan.
Proof. vm_compute. repeat split. Qed.

(** On doubles the first period of the default scenario is undiscounted. *)
Example first_period_binary64 :
  map (fun row => (YearRow.discountFactor row, YearRow.presentValue row))
      (firstn 1 (rowsOf defaults64))
    = [(of_Z 1, of_Z 60)] /\
  map YearRow.adjustedMargin (firstn 1 (rowsOf defaults64)) = [of_Z 60].
Proof. vm_compute. repeat split. Qed.

(** *** Instances of the theorems *)

Lemma calculateCLV_rows_witness :
  Forall stored (repeatProbabilities defaults) /\
  (1 < timeHorizon defaults)%nat /\
  List.length (rowsOf defaults) = timeHorizon defaults /\
  exists row : YearRow.t xnum,
    nth_error (rowsOf defaults) 1 = Some row /\
    YearRow.year row = 1%nat /\
    YearRow.repeatProb row =
      match nth_error (repeatProbabilities defaults) 1 with
      | Some p => p
      | None => of_Z 0
      end /\
    YearRow.adjustedMargin row =
      margin defaults * (YearRow.repeatProb row / of_Z 100) /\
    YearRow.discountFactor row =
      Math_pow (of_Z 1 + discountRate defaults / of_Z 100) 1 /\
    YearRow.presentValue row =
      YearRow.adjustedMargin row / YearRow.discountFactor row.
Proof.
  assert (Hstored : Forall stored (repeatProbabilities defaults))
    by (repeat constructor).
  assert (Hlt : (1 < timeHorizon defaults)%nat) by (simpl; lia).
  split; [exact Hstored|]. split; [exact Hlt|].
  split.
  - exact (proj1 (calculateCLV_rows defaults Hstored)).
  - exact (proj2 (calculateCLV_rows defaults Hstored) 1%nat Hlt).
Defined.

Lemma horizon_length_invariant_witness :
  reachable defaults /\
  List.length (repeatProbabilities (addYear defaults))
    = timeHorizon (addYear defaults) /\
  List.length (repeatProbabilities (removeYear defaults))
    = timeHorizon (removeYear defaults).
Proof.
  split; [apply reach_initial|].
  apply (horizon_length_invariant (d:=defaults) (reach_initial (num:=xnum))).
Defined.

Lemma addYear_spec_witness :
  ((timeHorizon defaults < 10)%nat /\
   timeHorizon (addYear defaults) = 7%nat /\
   repeatProbabilities (addYear defaults)
     = (repeatProbabilities defaults ++ [of_Z 20])%list /\
   margin (addYear defaults) = margin defaults /\
   acquisitionCost (addYear defaults) = acquisitionCost defaults /\
   discountRate (addYear defaults) = discountRate defaults) /\
  (timeHorizon longest = 10%nat /\ addYear longest = longest).
Proof.
  split.
  - assert (Hlt : (timeHorizon defaults < 10)%nat) by (simpl; lia).
    split; [exact Hlt|].
    exact (proj1 (addYear_spec defaults) Hlt).
  - assert (Hmax : timeHorizon longest = 10%nat) by reflexivity.
    split; [exact Hmax|].
    exact (proj2 (addYear_spec longest) Hmax).
Defined.

Lemma removeYear_spec_witness :
  ((1 < timeHorizon defaults)%nat /\
   repeatProbabilities defaults
     = (map of_Z [100; 90; 85; 85; 60]%Z ++ [of_Z 30])%list /\
   S (timeHorizon (removeYear defaults)) = 6%nat /\
   repeatProbabilities (removeYear defaults)
     = map of_Z [100; 90; 85; 85; 60]%Z /\
   margin (removeYear defaults) = margin defaults /\
   acquisitionCost (removeYear defaults) = acquisitionCost defaults /\
   discountRate (removeYear defaults) = discountRate defaults) /\
  (timeHorizon shortest_horizon = 1%nat /\
   removeYear shortest_horizon = shortest_horizon).
Proof.
  split.
  - assert (Hlt : (1 < timeHorizon defaults)%nat) by (simpl; lia).
    assert (Hxs : repeatProbabilities defaults
                  = (map of_Z [100; 90; 85; 85; 60]%Z ++ [of_Z 30])%list)
      by reflexivity.
    destruct (proj1 (removeYear_spec defaults) Hlt)
      as (Hth & Hlast & _ & Hm & Ha & Hr).
    split; [exact Hlt|]. split; [exact Hxs|].
    split; [exact Hth|]. split; [exact (Hlast _ _ Hxs)|].
    split; [exact Hm|]. split; [exact Ha|exact Hr].
  - assert (Hmin : timeHorizon shortest_horizon = 1%nat) by reflexivity.
    split; [exact Hmin|].
    exact (proj2 (removeYear_spec shortest_horizon) Hmin).
Defined.


Lemma degenerate_discount_rate_witness :
  of_Z 1 + of_Z (-100) / of_Z 100 = (of_Z 0 : float) /\
  (forall t : nat, Math_pow (of_Z 0) (S t) = (of_Z 0 : float)) /\
  discountRate degenerate64 = of_Z (-100) /\
  (1 <= 1 < timeHorizon degenerate64)%nat /\
  exists rows total final,
    calculateCLV degenerate64 = (rows, total, final) /\
    List.length rows = timeHorizon degenerate64 /\
    total = sum (map YearRow.presentValue rows) /\
    final = total - acquisitionCost degenerate64 /\
    exists row : YearRow.t float,
      nth_error rows 1 = Some row /\
      YearRow.discountFactor row = of_Z 0 /\
      YearRow.presentValue row = YearRow.adjustedMargin row / of_Z 0.
Proof.
  assert (Hrate : discountRate degenerate64 = of_Z (-100))
    by (vm_compute; reflexivity).
  assert (Ht : (1 <= 1 < timeHorizon degenerate64)%nat) by (simpl; lia).
  split; [exact binary64_degenerate_base|].
  split; [exact binary64_pow_zero|].
  split; [exact Hrate|]. split; [exact Ht|].
  destruct (degenerate_discount_rate
              degenerate64 binary64_degenerate_base binary64_pow_zero Hrate)
    as [(rows & total & final & Hcalc & Hlen & Htotal & Hfinal & Hrows) _].
  exists rows, total, final.
  split; [exact Hcalc|]. split; [exact Hlen|].
  split; [exact Htotal|]. split; [exact Hfinal|].
  exact (Hrows 1%nat Ht).
Defined.

Lemma first_period_undiscounted_witness :
  (forall x : xnum, Math_pow x 0 = of_Z 1) /\
  (forall x : xnum, x / of_Z 1 = x) /\
  (1 <= timeHorizon defaults)%nat /\
  exists row : YearRow.t xnum,
    nth_error (rowsOf defaults) 0 = Some row /\
    YearRow.discountFactor row = of_Z 1 /\
    YearRow.presentValue row = YearRow.adjustedMargin row.
Proof.
  assert (Hth : (1 <= timeHorizon defaults)%nat) by (simpl; lia).
  split; [exact xnum_pow_0|]. split; [exact xnum_div_1|].
  split; [exact Hth|].
  exact (first_period_undiscounted defaults xnum_pow_0 xnum_div_1 Hth).
Defined.

Lemma acquisitionCost_noninterference_witness :
  let d2 := changeAcquisitionCost defaults (of_Z 50) in
  margin defaults = margin d2 /\
  repeatProbabilities defaults = repeatProbabilities d2 /\
  discountRate defaults = discountRate d2 /\
  timeHorizon defaults = timeHorizon d2 /\
  acquisitionCost d2 = of_Z 50 /\
  rowsOf defaults = rowsOf d2 /\
  totalOf defaults = totalOf d2 /\
  clvOf defaults = totalOf defaults - acquisitionCost defaults /\
  clvOf d2 = totalOf defaults - acquisitionCost d2.
Proof.
  intros d2.
  do 5 (split; [reflexivity|]).
  exact (acquisitionCost_noninterference defaults d2
           eq_refl eq_refl eq_refl eq_refl).
Defined.

End Scenarios.


(** ** The handlers, one after another *)

Section Handlers.

Context {num : Type} `{Number num}.

Lemma array_set_same (xs : list num) (i : nat) (v : num) :
  nth_error (array_set xs i v) i = Some v.
Proof.
  revert xs. induction i as [|i IH]; intros [|x xs]; simpl;
    try reflexivity; apply IH.
Qed.

Lemma array_set_other (xs : list num) (i j : nat) (v : num) :
  (j < List.length xs)%nat -> j <> i ->
  nth_error (array_set xs i v) j = nth_error xs j.
Proof.
  revert i j. induction xs as [|x xs IH]; intros [|i] [|j] Hj Hij;
    simpl in *; try lia; try reflexivity.
  apply IH; lia.
Qed.

Lemma array_set_past_end_length (xs : list num) (i : nat) (v : num) :
  (List.length xs <= i)%nat -> List.length (array_set xs i v) = S i.
Proof.
  revert xs. induction i as [|i IH]; intros [|x xs] Hi; simpl in *;
    try lia; try reflexivity; rewrite IH; simpl; lia.
Qed.

Lemma array_set_gap (xs : list num) (i j : nat) (v : num) :
  (List.length xs <= j < i)%nat ->
  nth_error (array_set xs i v) j = Some (of_Z 0).
Proof.
  revert xs j. induction i as [|i IH]; intros [|x xs] [|j] Hj; simpl in *;
    try lia; try reflexivity; apply IH; simpl; lia.
Qed.

Lemma array_set_frame (xs : list num) (i j : nat) (v : num) :
  (i < List.length xs)%nat -> j <> i ->
  nth_error (array_set xs i v) j = nth_error xs j.
Proof.
  intros Hi Hj.
  destruct (Nat.lt_ge_cases j (List.length xs)) as [Hlt|Hge].
  - now apply array_set_other.
  - pose proof (array_set_length xs v Hi) as Hlen.
    transitivity (@None num).
    + apply nth_error_None. now rewrite Hlen.
    + symmetry. now apply nth_error_None.
Qed.

(** [updateRepeatProbability] at an index the array has: the entry at that
    index becomes the new value, every other entry and the length stay, and
    no other field changes. *)
Theorem updateRepeatProbability_in_range (d : CLVData num) (i : nat)
        (v : num) :
  (i < List.length (repeatProbabilities d))%nat ->
  let d' := updateRepeatProbability d i v in
  List.length (repeatProbabilities d') = List.length (repeatProbabilities d) /\
  nth_error (repeatProbabilities d') i = Some v /\
  (forall j : nat, j <> i ->
     nth_error (repeatProbabilities d') j
       = nth_error (repeatProbabilities d) j) /\
  margin d' = margin d /\
  acquisitionCost d' = acquisitionCost d /\
  discountRate d' = discountRate d /\
  timeHorizon d' = timeHorizon d.
Proof.
  intros Hi d'. subst d'. unfold updateRepeatProbability.
  cbn [repeatProbabilities margin acquisitionCost discountRate timeHorizon].
  split; [now apply array_set_length|].
  split; [apply array_set_same|].
  split; [|repeat split].
  intros j Hj. now apply array_set_frame.
Qed.

(** [updateRepeatProbability] at an index past the end extends the array up
    to that index: the entries it had stay, the new value is the last one,
    and a slot in between reads as [0] through [|| 0]. *)
Theorem updateRepeatProbability_past_end (d : CLVData num) (i : nat)
        (v : num) :
  (List.length (repeatProbabilities d) <= i)%nat ->
  let d' := updateRepeatProbability d i v in
  List.length (repeatProbabilities d') = S i /\
  nth_error (repeatProbabilities d') i = Some v /\
  (forall j : nat, (j < List.length (repeatProbabilities d))%nat ->
     nth_error (repeatProbabilities d') j
       = nth_error (repeatProbabilities d) j) /\
  (forall j : nat, (List.length (repeatProbabilities d) <= j < i)%nat ->
     js_or (nth_error (repeatProbabilities d') j) (of_Z 0) = of_Z 0).
Proof.
  intros Hi d'. subst d'. unfold updateRepeatProbability.
  cbn [repeatProbabilities].
  split; [now apply array_set_past_end_length|].
  split; [apply array_set_same|].
  split.
  - intros j Hj. apply array_set_other; lia.
  - intros j Hj. rewrite array_set_gap by exact Hj. apply stored_zero.
Qed.

(** [removeYear] undoes [addYear]: from a horizon of 1 to 9, growing and
    then shrinking gives back the state. *)
Theorem removeYear_addYear (d : CLVData num) :
  (1 <= timeHorizon d < 10)%nat -> removeYear (addYear d) = d.
Proof.
  intros [Hlo Hhi]. destruct d as [m ps a r th]. simpl in Hlo, Hhi.
  unfold addYear. cbn [timeHorizon].
  apply Nat.ltb_lt in Hhi. rewrite Hhi.
  unfold removeYear.
  cbn [timeHorizon repeatProbabilities margin acquisitionCost discountRate].
  assert (Hgt : (1 <? th + 1)%nat = true) by (apply Nat.ltb_lt; lia).
  rewrite Hgt, slice_drop_last_app. f_equal. lia.
Qed.

(** [addYear] after [removeYear] restores the horizon but not the last
    probability: from a horizon of 2 to 10, shrinking and then growing puts
    [20] in the place of the last entry, so the state comes back exactly when
    that entry was [20]. *)
Theorem addYear_removeYear (d : CLVData num) :
  (1 < timeHorizon d <= 10)%nat ->
  let d' := addYear (removeYear d) in
  timeHorizon d' = timeHorizon d /\
  repeatProbabilities d'
    = (removelast (repeatProbabilities d) ++ [of_Z 20])%list /\
  margin d' = margin d /\
  acquisitionCost d' = acquisitionCost d /\
  discountRate d' = discountRate d /\
  (forall front : list num,
     repeatProbabilities d = (front ++ [of_Z 20])%list -> d' = d).
Proof.
  intros [Hlo Hhi] d'. subst d'. destruct d as [m ps a r th].
  simpl in Hlo, Hhi. unfold removeYear. cbn [timeHorizon].
  assert (Hgt : (1 <? th)%nat = true) by (apply Nat.ltb_lt; lia).
  rewrite Hgt. unfold addYear.
  cbn [timeHorizon repeatProbabilities margin acquisitionCost discountRate].
  assert (Hlt : (th - 1 <? 10)%nat = true) by (apply Nat.ltb_lt; lia).
  rewrite Hlt.
  cbn [timeHorizon repeatProbabilities margin acquisitionCost discountRate].
  rewrite slice_drop_last.
  split; [lia|]. split; [reflexivity|]. do 3 (split; [reflexivity|]).
  intros front Hps. rewrite Hps, removelast_last. f_equal. lia.
Qed.

(** A horizon button is disabled exactly when its handler would leave the
    state as it is. *)
Theorem disabled_iff_no_change (d : CLVData num) :
  (removeDisabled d = true <-> removeYear d = d) /\
  (addDisabled d = true <-> addYear d = d).
Proof.
  unfold removeDisabled, addDisabled, removeYear, addYear. split; split.
  - intros Hle. apply Nat.leb_le in Hle.
    assert (Hgt : (1 <? timeHorizon d)%nat = false)
      by (apply Nat.ltb_ge; lia).
    now rewrite Hgt.
  - destruct (1 <? timeHorizon d)%nat eqn:Hgt.
    + intros Heq. apply (f_equal (@timeHorizon num)) in Heq.
      cbn [timeHorizon] in Heq. apply Nat.ltb_lt in Hgt. lia.
    + intros _. apply Nat.ltb_ge in Hgt. apply Nat.leb_le. lia.
  - intros Hle. apply Nat.leb_le in Hle.
    assert (Hlt : (timeHorizon d <? 10)%nat = false)
      by (apply Nat.ltb_ge; lia).
    now rewrite Hlt.
  - destruct (timeHorizon d <? 10)%nat eqn:Hlt.
    + intros Heq. apply (f_equal (@timeHorizon num)) in Heq.
      cbn [timeHorizon] in Heq. lia.
    + intros _. apply Nat.ltb_ge in Hlt. apply Nat.leb_le. lia.
Qed.

End Handlers.

(** ** Recomputation after a change *)

Section Recomputation.

Context {num : Type} `{Number num}.
Local Open Scope num_scope.

Lemma breakdownRow_ext (d d' : CLVData num) (t : nat) :
  margin d' = margin d ->
  discountRate d' = discountRate d ->
  nth_error (repeatProbabilities d') t = nth_error (repeatProbabilities d) t ->
  breakdownRow d' t = breakdownRow d t.
Proof. intros Hm Hr Hp. unfold breakdownRow. now rewrite Hm, Hr, Hp. Qed.

Lemma sum_snoc (xs : list num) (x : num) : sum (xs ++ [x]) = sum xs + x.
Proof. unfold sum. now rewrite fold_left_app. Qed.

Lemma nth_error_removelast (A : Type) (xs : list A) (t : nat) :
  (S t < List.length xs)%nat ->
  nth_error (removelast xs) t = nth_error xs t.
Proof.
  intros Ht. rewrite removelast_firstn_len, nth_error_firstn.
  assert (Hlt : (t <? Nat.pred (List.length xs))%nat = true)
    by (apply Nat.ltb_lt; lia).
  now rewrite Hlt.
Qed.

(** Growing the horizon keeps every row there was and appends one, the row
    of the new period, whose probability is [20 || 0]; the total grows by the
    present value of that row. *)
Theorem addYear_rows (d : CLVData num) :
  aligned d -> (timeHorizon d < 10)%nat ->
  exists row : YearRow.t num,
    rowsOf (addYear d) = (rowsOf d ++ [row])%list /\
    YearRow.year row = timeHorizon d /\
    YearRow.repeatProb row = js_or (Some (of_Z 20)) (of_Z 0) /\
    totalOf (addYear d) = totalOf d + YearRow.presentValue row.
Proof.
  intros Hd Hth. unfold aligned in Hd.
  exists (breakdownRow (addYear d) (timeHorizon d)).
  assert (Hadd : addYear d
                 = mkCLVData (margin d)
                             (repeatProbabilities d ++ [of_Z 20])%list
                             (acquisitionCost d) (discountRate d)
                             (timeHorizon d + 1)).
  { unfold addYear. apply Nat.ltb_lt in Hth. now rewrite Hth. }
  assert (Hrows : rowsOf (addYear d)
                  = (rowsOf d
                       ++ [breakdownRow (addYear d) (timeHorizon d)])%list).
  { rewrite !rowsOf_eq. rewrite Hadd at 2. cbn [timeHorizon].
    rewrite Nat.add_1_r, seq_S, map_app. cbn [map Nat.add]. f_equal.
    apply map_ext_in. intros t Ht. apply in_seq in Ht.
    apply breakdownRow_ext; rewrite Hadd; cbn; try reflexivity.
    apply nth_error_app1. lia. }
  split; [exact Hrows|]. split; [reflexivity|]. split.
  - unfold breakdownRow. cbn [YearRow.repeatProb]. rewrite Hadd.
    cbn [repeatProbabilities].
    rewrite nth_error_app2 by lia. rewrite Hd, Nat.sub_diag. reflexivity.
  - rewrite !totalOf_eq, Hrows, map_app. cbn [map]. apply sum_snoc.
Qed.

(** Shrinking the horizon removes the last row and keeps the others; the
    total was the new total plus the present value of the row removed. *)
Theorem removeYear_rows (d : CLVData num) :
  aligned d -> (1 < timeHorizon d)%nat ->
  rowsOf (removeYear d) = removelast (rowsOf d) /\
  exists row : YearRow.t num,
    rowsOf d = (rowsOf (removeYear d) ++ [row])%list /\
    S (YearRow.year row) = timeHorizon d /\
    totalOf d = totalOf (removeYear d) + YearRow.presentValue row.
Proof.
  intros Hd Hth. unfold aligned in Hd.
  assert (Hrem : removeYear d
                 = mkCLVData (margin d)
                             (removelast (repeatProbabilities d))
                             (acquisitionCost d) (discountRate d)
                             (timeHorizon d - 1)).
  { unfold removeYear. pose proof Hth as Hb. apply Nat.ltb_lt in Hb.
    now rewrite Hb, slice_drop_last. }
  assert (Hrows : rowsOf d
                  = (rowsOf (removeYear d)
                       ++ [breakdownRow d (timeHorizon d - 1)])%list).
  { rewrite !rowsOf_eq, Hrem. cbn [timeHorizon].
    replace (seq 0 (timeHorizon d))
      with (seq 0 (S (timeHorizon d - 1))) by (f_equal; lia).
    rewrite seq_S, map_app. cbn [map Nat.add]. f_equal.
    apply map_ext_in. intros t Ht. apply in_seq in Ht. symmetry.
    apply breakdownRow_ext; cbn; try reflexivity.
    apply nth_error_removelast. lia. }
  split.
  - transitivity
      (removelast (rowsOf (removeYear d)
                     ++ [breakdownRow d (timeHorizon d - 1)])%list).
    + now rewrite removelast_last.
    + now rewrite <- Hrows.
  - exists (breakdownRow d (timeHorizon d - 1)).
    split; [exact Hrows|]. split; [cbn; lia|].
    rewrite (totalOf_eq d), Hrows, map_app. cbn [map].
    rewrite sum_snoc. now rewrite <- totalOf_eq.
Qed.

(** Changing the probability of one period leaves the row of every other
    period as it was; the row of that period reads the new value through
    [|| 0]. *)
Theorem updateRepeatProbability_rows (d : CLVData num) (i : nat) (v : num) :
  (i < List.length (repeatProbabilities d))%nat ->
  let d' := updateRepeatProbability d i v in
  List.length (rowsOf d') = List.length (rowsOf d) /\
  (forall t : nat, t <> i ->
     nth_error (rowsOf d') t = nth_error (rowsOf d) t) /\
  ((i < timeHorizon d)%nat ->
   exists row : YearRow.t num,
     nth_error (rowsOf d') i = Some row /\
     YearRow.repeatProb row = js_or (Some v) (of_Z 0)).
Proof.
  intros Hi d'. subst d'.
  split; [now rewrite !rowsOf_length|]. split.
  - intros t Ht. rewrite !rowsOf_eq, !nth_error_map.
    cbn [updateRepeatProbability timeHorizon].
    destruct (nth_error (seq 0 (timeHorizon d)) t) as [k|] eqn:Hk;
      [|reflexivity].
    cbn [option_map]. f_equal.
    assert (Hkt : k = t).
    { rewrite nth_error_seq in Hk.
      destruct (t <? timeHorizon d)%nat; [|discriminate Hk].
      now injection Hk. }
    subst k. apply breakdownRow_ext; try reflexivity.
    cbn [updateRepeatProbability repeatProbabilities].
    now apply array_set_frame.
  - intros Hth. exists (breakdownRow (updateRepeatProbability d i v) i).
    split; [now apply rowsOf_nth|].
    unfold breakdownRow. cbn [YearRow.repeatProb updateRepeatProbability
                              repeatProbabilities].
    now rewrite array_set_same.
Qed.

(** With a discount rate of [0], in an arithmetic where [1 + 0 / 100] is
    [1], every power of [1] is [1] and [x / 1] is [x], no period is
    discounted: each row has [discountFactor] [1] and a [presentValue] equal
    to its [adjustedMargin], and [totalPV] is the sum of the adjusted
    margins. *)
Theorem zero_discount_rate (d : CLVData num) :
  of_Z 1 + of_Z 0 / of_Z 100 = of_Z 1 ->
  (forall t : nat, Math_pow (of_Z 1) t = of_Z 1) ->
  (forall x : num, x / of_Z 1 = x) ->
  discountRate d = of_Z 0 ->
  Forall (fun row => YearRow.discountFactor row = of_Z 1 /\
                     YearRow.presentValue row = YearRow.adjustedMargin row)
         (rowsOf d) /\
  totalOf d = sum (map YearRow.adjustedMargin (rowsOf d)).
Proof.
  intros Hbase Hpow Hdiv Hrate.
  assert (Hrows : Forall (fun row => YearRow.discountFactor row = of_Z 1 /\
                                     YearRow.presentValue row
                                       = YearRow.adjustedMargin row)
                         (rowsOf d)).
  { rewrite rowsOf_eq. apply Forall_forall. intros row Hrow.
    apply in_map_iff in Hrow as (t & <- & _).
    unfold breakdownRow. cbn [YearRow.discountFactor YearRow.presentValue
                              YearRow.adjustedMargin].
    rewrite Hrate, Hbase, Hpow. split; [reflexivity|apply Hdiv]. }
  split; [exact Hrows|].
  rewrite totalOf_eq. f_equal. apply map_ext_in. intros row Hrow.
  rewrite Forall_forall in Hrows. now apply Hrows.
Qed.

End Recomputation.

(** ** The states of the page *)

Section Page.

Context {num : Type} `{Number num}.
Local Open Scope num_scope.





(** In every state of the page the horizon is between 1 and 10, and so is
    the number of rows of the breakdown and of probability inputs shown. *)
Theorem reachable_horizon (d : CLVData num) :
  reachable d ->
  (1 <= timeHorizon d <= 10)%nat /\
  List.length (rowsOf d) = timeHorizon d /\
  List.length (probabilityInputs d) = timeHorizon d /\
  List.length (repeatProbabilities d) = timeHorizon d.
Proof.
  intros Hd. split; [now apply reachable_bounds|].
  split; [apply rowsOf_length|]. split.
  - unfold probabilityInputs. now rewrite length_map, length_seq.
  - now apply reachable_aligned.
Qed.


(** The inputs, the rows and the exported table line up: there is one input
    per row, the input of a period shows the probability its row is computed
    from, under the label the exported row of the period starts with. *)
Theorem inputs_match_rows (d : CLVData num) :
  List.length (probabilityInputs d) = List.length (rowsOf d) /\
  forall t : nat, (t < timeHorizon d)%nat ->
    exists (label : string) (row : YearRow.t num) (cells : list string),
      nth_error (probabilityInputs d) t = Some (label, YearRow.repeatProb row) /\
      nth_error (rowsOf d) t = Some row /\
      nth_error (exportTable (setData d)) (S t) = Some (label :: cells).
Proof.
  split.
  - unfold probabilityInputs.
    now rewrite rowsOf_length, length_map, length_seq.
  - intros t Ht. pose proof (rowsOf_nth d Ht) as Hrow.
    eexists _, (breakdownRow d t), _.
    split; [|split; [exact Hrow|]].
    + unfold probabilityInputs. rewrite nth_error_map, nth_error_seq.
      apply Nat.ltb_lt in Ht. rewrite Ht. reflexivity.
    + rewrite (@exportTable_data _ _ (setData d) t (breakdownRow d t))
        by now rewrite setData_fields.
      reflexivity.
Qed.

(** *** The shape of the exported file *)

Lemma count_append (c : ascii) (a b : string) :
  count_char c (a ++ b) = (count_char c a + count_char c b)%nat.
Proof.
  induction a as [|x a IH]; [reflexivity|].
  cbn [append count_char]. rewrite IH. lia.
Qed.

Lemma count_join (c : ascii) (sep : string) (cells : list string) :
  count_char c (join sep cells) =
    (list_sum (map (count_char c) cells)
     + Nat.pred (List.length cells) * count_char c sep)%nat.
Proof.
  unfold join. induction cells as [|x [|y cells] IH].
  - reflexivity.
  - cbn. lia.
  - change (String.concat sep (x :: y :: cells))
      with (x ++ sep ++ String.concat sep (y :: cells))%string.
    rewrite !count_append, IH. simpl. lia.
Qed.

Lemma count_uint (c : ascii) (u : Decimal.uint) :
  separator c -> count_char c (NilEmpty.string_of_uint u) = 0%nat.
Proof.
  intros [-> | ->]; induction u; cbn; assumption || reflexivity.
Qed.

Lemma count_literal (c : ascii) (s : string) :
  separator c ->
  count_char ","%char s = 0%nat -> count_char (ascii_of_nat 10) s = 0%nat ->
  count_char c s = 0%nat.
Proof. now intros [-> | ->]. Qed.

(** The text of the [calculation] column and the labels have no separator
    when the printed numbers have none. *)
Definition prints_plain : Prop :=
  forall c : ascii, separator c ->
    (forall x : num, count_char c (toString x) = 0%nat) /\
    (forall (x : num) (f : nat), count_char c (toFixed x f) = 0%nat).

Lemma exportRow_plain (d : CLVData num) (t : nat) (c : ascii) :
  prints_plain -> separator c ->
  Forall (fun cell => count_char c cell = 0%nat)
         (exportRow (breakdownRow d t)).
Proof.
  intros Hplain Hc. destruct (Hplain c Hc) as [Hstr Hfix].
  pose proof (fun u => @count_uint c u Hc) as Huint.
  unfold exportRow, breakdownRow, string_of_nat.
  cbn [YearRow.year YearRow.margin YearRow.repeatProb YearRow.adjustedMargin
       YearRow.discountFactor YearRow.presentValue YearRow.calculation].
  destruct Hc as [-> | ->];
    repeat constructor; try apply Hfix;
    destruct t as [|t]; cbn [Nat.eqb];
    rewrite ?count_append, ?Hstr, ?Hfix, ?Huint; reflexivity.
Qed.

Lemma exportTable_plain (d : CLVData num) (c : ascii) :
  prints_plain -> separator c ->
  Forall (fun row => List.length row = 7%nat /\
                     Forall (fun cell => count_char c cell = 0%nat) row)
         (exportTable (setData d)).
Proof.
  intros Hplain Hc. destruct (Hplain c Hc) as [Hstr Hfix].
  rewrite setData_fields. unfold exportTable.
  cbn [yearlyBreakdown totalPV clv data].
  apply Forall_app. split; [|apply Forall_app; split].
  - constructor; [|constructor]. split; [reflexivity|].
    unfold exportHeader. repeat constructor; now apply count_literal.
  - rewrite rowsOf_eq, map_map. apply Forall_forall. intros row Hrow.
    apply in_map_iff in Hrow as (t & <- & _).
    split; [reflexivity|now apply exportRow_plain].
  - repeat constructor; try apply Hfix; now apply count_literal.
Qed.

(** When the printed numbers contain neither a comma nor a newline, the
    exported file needs no quoting: every line has exactly the 6 commas
    between its 7 cells and the file has exactly one newline between its
    [timeHorizon + 4] lines. *)
Theorem csvContent_shape (d : CLVData num) :
  prints_plain ->
  Forall (fun line => count_char ","%char line = 6%nat /\
                      count_char (ascii_of_nat 10) line = 0%nat)
         (map (join ",") (exportTable (setData d))) /\
  List.length (exportTable (setData d)) = (timeHorizon d + 4)%nat /\
  count_char (ascii_of_nat 10) (csvContent (setData d))
    = (timeHorizon d + 3)%nat.
Proof.
  intros Hplain.
  assert (Hsum : forall (c : ascii) (row : list string),
             Forall (fun cell => count_char c cell = 0%nat) row ->
             list_sum (map (count_char c) row) = 0%nat).
  { intros c row Hrow. induction Hrow as [|x row Hx _ IH];
      [reflexivity|]. simpl. now rewrite Hx, IH. }
  assert (Hlines :
            Forall (fun line => count_char ","%char line = 6%nat /\
                                count_char (ascii_of_nat 10) line = 0%nat)
                   (map (join ",") (exportTable (setData d)))).
  { pose proof (@exportTable_plain d ","%char Hplain (or_introl eq_refl))
      as Hcomma.
    pose proof (@exportTable_plain d (ascii_of_nat 10) Hplain
                                   (or_intror eq_refl)) as Hnl.
    rewrite Forall_forall in Hcomma, Hnl.
    apply Forall_forall. intros line Hline.
    apply in_map_iff in Hline as (row & <- & Hrow).
    destruct (Hcomma row Hrow) as [Hlen Hc].
    destruct (Hnl row Hrow) as [_ Hn].
    rewrite !count_join, (Hsum _ _ Hc), (Hsum _ _ Hn), Hlen.
    split; reflexivity. }
  assert (Hlen : List.length (exportTable (setData d))
                 = (timeHorizon d + 4)%nat).
  { rewrite exportTable_length, setData_fields. cbn [yearlyBreakdown].
    now rewrite rowsOf_length. }
  split; [exact Hlines|]. split; [exact Hlen|].
  unfold csvContent. rewrite count_join, length_map, Hlen.
  rewrite (Hsum (ascii_of_nat 10)).
  - cbn. lia.
  - apply Forall_forall. intros line Hline.
    rewrite Forall_forall in Hlines. now apply Hlines.
Qed.

End Page.

(** ** What the two instances print *)

Create HintDb plain.

Section Printing.

Local Open Scope string_scope.

Variable c : ascii.
Hypothesis Hc : separator c.

Lemma plain_append (a b : string) :
  count_char c a = 0%nat -> count_char c b = 0%nat ->
  count_char c (a ++ b) = 0%nat.
Proof. intros Ha Hb. now rewrite count_append, Ha, Hb. Qed.

Lemma plain_substring (n m : nat) (s : string) :
  count_char c s = 0%nat -> count_char c (substring n m s) = 0%nat.
Proof.
  revert n m. induction s as [|x s IH]; intros [|n] [|m] Hs;
    cbn [substring count_char] in *; try reflexivity.
  - destruct (Ascii.eqb x c); [discriminate Hs|]. apply IH. exact Hs.
  - destruct (Ascii.eqb x c); [discriminate Hs|]. apply IH. exact Hs.
  - destruct (Ascii.eqb x c); [discriminate Hs|]. apply IH. exact Hs.
Qed.

Lemma plain_zeros (k : nat) : count_char c (X.zeros k) = 0%nat.
Proof.
  induction k as [|k IH]; cbn [X.zeros]; [now apply count_literal|].
  apply plain_append; [now apply count_literal|exact IH].
Qed.

Lemma plain_digits (n : Z) : count_char c (X.digits n) = 0%nat.
Proof. unfold X.digits. now apply count_uint. Qed.

#[local] Hint Resolve plain_append plain_substring plain_zeros plain_digits
  : plain.
#[local] Hint Extern 2 (count_char _ _ = 0%nat) =>
  (apply count_literal; [exact Hc|reflexivity|reflexivity]) : plain.

Lemma plain_layout (s n : Z) : count_char c (X.layout s n) = 0%nat.
Proof.
  unfold X.layout.
  repeat match goal with
         | |- context [if ?b then _ else _] => destruct b
         end; auto 8 with plain.
Qed.

Lemma plain_fixed (q : Q) (f : nat) : count_char c (X.fixed q f) = 0%nat.
Proof.
  unfold X.fixed.
  repeat match goal with
         | |- context [if ?b then _ else _] => destruct b
         end; auto 8 with plain.
Qed.

#[local] Hint Resolve plain_layout plain_fixed : plain.

Lemma plain_X_toString (x : xnum) : count_char c (X.toString x) = 0%nat.
Proof.
  destruct x as [q| | |]; cbn [X.toString]; auto with plain.
  destruct (Qnum q); unfold X.shortest;
    repeat match goal with
           | |- context [if ?b then _ else _] => destruct b
           end; auto with plain.
Qed.

Lemma plain_X_toFixed (x : xnum) (f : nat) :
  count_char c (X.toFixed x f) = 0%nat.
Proof.
  destruct x as [q| | |]; cbn [X.toFixed];
    try apply plain_X_toString.
  destruct (Qle_bool _ _); [apply plain_X_toString|apply plain_fixed].
Qed.

Lemma plain_B64_toString (x : float) : count_char c (B64.toString x) = 0%nat.
Proof.
  unfold B64.toString. destruct (Prim2SF x) as [s|s| |s m e];
    auto with plain.
  - destruct s; auto with plain.
  - destruct (B64.shortest_from 17 1 m e) as [digits n].
    destruct s; auto with plain.
Qed.

Lemma plain_B64_toFixed (x : float) (f : nat) :
  count_char c (B64.toFixed x f) = 0%nat.
Proof.
  unfold B64.toFixed. destruct (B64.exact x) as [q|];
    [|apply plain_B64_toString].
  destruct (Qle_bool _ _); [apply plain_B64_toString|apply plain_fixed].
Qed.

End Printing.

Lemma xnum_prints_plain : prints_plain (num := xnum).
Proof.
  intros c Hc. split.
  - intros x. now apply plain_X_toString.
  - intros x f. now apply plain_X_toFixed.
Qed.

Lemma binary64_prints_plain : prints_plain (num := float).
Proof.
  intros c Hc. split.
  - intros x. now apply plain_B64_toString.
  - intros x f. now apply plain_B64_toFixed.
Qed.


Lemma xnum_zero_rate_base :
  (of_Z 1 + of_Z 0 / of_Z 100 = (of_Z 1 : xnum))%num.
Proof. apply Fin_eq. reflexivity. Qed.

Lemma xnum_pow_one (t : nat) : Math_pow (of_Z 1) t = (of_Z 1 : xnum).
Proof.
  destruct t as [|t]; [reflexivity|].
  cbn [Math_pow xnum_Number X.pow of_Z]. f_equal.
  change (Q2Qc (inject_Z 1)) with 1%Qc. apply Qcpower_1.
Qed.

(** ** Instances of the further theorems *)

Section FurtherInstances.

Local Open Scope num_scope.

Lemma updateRepeatProbability_in_range_witness :
  let d' := updateRepeatProbability defaults 2 (of_Z 50) in
  (2 < List.length (repeatProbabilities defaults))%nat /\
  List.length (repeatProbabilities d') = 6%nat /\
  nth_error (repeatProbabilities d') 2 = Some (of_Z 50) /\
  nth_error (repeatProbabilities d') 1
    = nth_error (repeatProbabilities defaults) 1 /\
  timeHorizon d' = timeHorizon defaults.
Proof.
  intros d'.
  assert (Hi : (2 < List.length (repeatProbabilities defaults))%nat)
    by (simpl; lia).
  destruct (updateRepeatProbability_in_range defaults (of_Z 50) Hi)
    as (Hlen & Hnew & Hold & _ & _ & _ & Hth).
  split; [exact Hi|]. split; [exact Hlen|]. split; [exact Hnew|].
  split; [|exact Hth].
  apply Hold. discriminate.
Defined.

Lemma updateRepeatProbability_past_end_witness :
  let d' := updateRepeatProbability defaults 8 (of_Z 50) in
  (List.length (repeatProbabilities defaults) <= 8)%nat /\
  List.length (repeatProbabilities d') = 9%nat /\
  nth_error (repeatProbabilities d') 8 = Some (of_Z 50) /\
  nth_error (repeatProbabilities d') 5
    = nth_error (repeatProbabilities defaults) 5 /\
  js_or (nth_error (repeatProbabilities d') 7) (of_Z 0) = of_Z 0.
Proof.
  intros d'.
  assert (Hi : (List.length (repeatProbabilities defaults) <= 8)%nat)
    by (simpl; lia).
  destruct (updateRepeatProbability_past_end defaults (of_Z 50) Hi)
    as (Hlen & Hnew & Hold & Hgap).
  split; [exact Hi|]. split; [exact Hlen|]. split; [exact Hnew|].
  split.
  - apply Hold. simpl. lia.
  - apply Hgap. simpl. lia.
Defined.

Lemma removeYear_addYear_witness :
  (1 <= timeHorizon defaults < 10)%nat /\
  removeYear (addYear defaults) = defaults.
Proof.
  assert (Hth : (1 <= timeHorizon defaults < 10)%nat) by (simpl; lia).
  split; [exact Hth|]. exact (removeYear_addYear defaults Hth).
Defined.

Lemma addYear_removeYear_witness :
  let d := addYear defaults in
  (1 < timeHorizon d <= 10)%nat /\
  repeatProbabilities d = (repeatProbabilities defaults ++ [of_Z 20])%list /\
  timeHorizon (addYear (removeYear d)) = timeHorizon d /\
  addYear (removeYear d) = d.
Proof.
  intros d.
  assert (Hth : (1 < timeHorizon d <= 10)%nat) by (simpl; lia).
  assert (Hps : repeatProbabilities d
                = (repeatProbabilities defaults ++ [of_Z 20])%list)
    by reflexivity.
  destruct (addYear_removeYear d Hth) as (Hsame & _ & _ & _ & _ & Hback).
  split; [exact Hth|]. split; [exact Hps|]. split; [exact Hsame|].
  exact (Hback _ Hps).
Defined.

Lemma disabled_iff_no_change_witness :
  (removeDisabled shortest_horizon = true /\
   removeYear shortest_horizon = shortest_horizon) /\
  (addDisabled longest = true /\ addYear longest = longest).
Proof.
  split.
  - assert (Hdis : removeDisabled shortest_horizon = true) by reflexivity.
    split; [exact Hdis|].
    exact (proj1 (proj1 (disabled_iff_no_change shortest_horizon)) Hdis).
  - assert (Hdis : addDisabled longest = true) by reflexivity.
    split; [exact Hdis|].
    exact (proj1 (proj2 (disabled_iff_no_change longest)) Hdis).
Defined.

Lemma addYear_rows_witness :
  aligned defaults /\ (timeHorizon defaults < 10)%nat /\
  exists row : YearRow.t xnum,
    rowsOf (addYear defaults) = (rowsOf defaults ++ [row])%list /\
    YearRow.year row = timeHorizon defaults /\
    YearRow.repeatProb row = js_or (Some (of_Z 20)) (of_Z 0) /\
    totalOf (addYear defaults) = totalOf defaults + YearRow.presentValue row.
Proof.
  assert (Ha : aligned defaults) by reflexivity.
  assert (Hth : (timeHorizon defaults < 10)%nat) by (simpl; lia).
  split; [exact Ha|]. split; [exact Hth|].
  exact (addYear_rows Ha Hth).
Defined.

Lemma removeYear_rows_witness :
  aligned defaults /\ (1 < timeHorizon defaults)%nat /\
  rowsOf (removeYear defaults) = removelast (rowsOf defaults) /\
  exists row : YearRow.t xnum,
    rowsOf defaults = (rowsOf (removeYear defaults) ++ [row])%list /\
    S (YearRow.year row) = timeHorizon defaults /\
    totalOf defaults
      = totalOf (removeYear defaults) + YearRow.presentValue row.
Proof.
  assert (Ha : aligned defaults) by reflexivity.
  assert (Hth : (1 < timeHorizon defaults)%nat) by (simpl; lia).
  split; [exact Ha|]. split; [exact Hth|].
  exact (removeYear_rows Ha Hth).
Defined.

Lemma updateRepeatProbability_rows_witness :
  let d' := updateRepeatProbability defaults 2 (of_Z 50) in
  (2 < List.length (repeatProbabilities defaults))%nat /\
  (2 < timeHorizon defaults)%nat /\
  List.length (rowsOf d') = List.length (rowsOf defaults) /\
  nth_error (rowsOf d') 1 = nth_error (rowsOf defaults) 1 /\
  exists row : YearRow.t xnum,
    nth_error (rowsOf d') 2 = Some row /\
    YearRow.repeatProb row = js_or (Some (of_Z 50)) (of_Z 0).
Proof.
  intros d'.
  assert (Hi : (2 < List.length (repeatProbabilities defaults))%nat)
    by (simpl; lia).
  assert (Hth : (2 < timeHorizon defaults)%nat) by (simpl; lia).
  destruct (updateRepeatProbability_rows defaults (of_Z 50) Hi)
    as (Hlen & Hothers & Hown).
  split; [exact Hi|]. split; [exact Hth|]. split; [exact Hlen|].
  split; [|exact (Hown Hth)].
  apply Hothers. discriminate.
Defined.

Lemma zero_discount_rate_witness :
  let d := changeDiscountRate defaults (of_Z 0) in
  of_Z 1 + of_Z 0 / of_Z 100 = (of_Z 1 : xnum) /\
  (forall t : nat, Math_pow (of_Z 1) t = (of_Z 1 : xnum)) /\
  (forall x : xnum, x / of_Z 1 = x) /\
  discountRate d = of_Z 0 /\
  Forall (fun row => YearRow.discountFactor row = of_Z 1 /\
                     YearRow.presentValue row = YearRow.adjustedMargin row)
         (rowsOf d) /\
  totalOf d = sum (map YearRow.adjustedMargin (rowsOf d)).
Proof.
  intros d.
  assert (Hrate : discountRate d = of_Z 0) by reflexivity.
  split; [exact xnum_zero_rate_base|]. split; [exact xnum_pow_one|].
  split; [exact xnum_div_1|]. split; [exact Hrate|].
  exact (zero_discount_rate d xnum_zero_rate_base xnum_pow_one
                            xnum_div_1 Hrate).
Defined.


Lemma reachable_horizon_witness :
  reachable longest /\
  (1 <= timeHorizon longest <= 10)%nat /\
  List.length (rowsOf longest) = timeHorizon longest /\
  List.length (probabilityInputs longest) = timeHorizon longest /\
  List.length (repeatProbabilities longest) = timeHorizon longest.
Proof.
  assert (Hd : reachable longest)
    by (repeat apply reach_addYear; apply reach_initial).
  split; [exact Hd|]. exact (reachable_horizon Hd).
Defined.


Lemma inputs_match_rows_witness :
  (1 < timeHorizon defaults)%nat /\
  exists (label : string) (row : YearRow.t xnum) (cells : list string),
    nth_error (probabilityInputs defaults) 1
      = Some (label, YearRow.repeatProb row) /\
    nth_error (rowsOf defaults) 1 = Some row /\
    nth_error (exportTable (setData defaults)) 2 = Some (label :: cells).
Proof.
  assert (Ht : (1 < timeHorizon defaults)%nat) by (simpl; lia).
  split; [exact Ht|].
  exact (proj2 (inputs_match_rows defaults) 1%nat Ht).
Defined.

Lemma csvContent_shape_witness :
  prints_plain (num := xnum) /\
  Forall (fun line => count_char ","%char line = 6%nat /\
                      count_char (ascii_of_nat 10) line = 0%nat)
         (map (join ",") (exportTable (setData defaults))) /\
  List.length (exportTable (setData defaults)) = 10%nat /\
  count_char (ascii_of_nat 10) (csvContent (setData defaults)) = 9%nat.
Proof.
  split; [exact @xnum_prints_plain|].
  exact (csvContent_shape defaults (@xnum_prints_plain)).
Defined.

End FurtherInstances.
